(** * The Metropolis sampler of "A Bayesian tutorial in Python, part II"

    A shallow embedding of the three functions of the notebook
    [posts/a-bayesian-tutorial-in-python-part-II.ipynb] that make up the
    sampler: [mcmc], [get_log_lik] and [get_log_prior].

    - Numbers.  The notebook computes on NumPy [float64] values.  The sampler
      is embedded over an arbitrary carrier [num] with the operations the code
      performs on it (class [Numeric]); nothing is assumed about them, so what
      is proved of the generic sampler holds for IEEE-754 doubles, NaN and
      rounding included.  Two carriers are given: [Binary64.float64_numeric],
      the program's own arithmetic (IEEE-754 binary64 on Rocq's primitive
      floats, with NumPy's summation order and SciPy's formulas), on which
      concrete runs are computed; and [real_numeric], the exact reals, an
      idealisation without rounding, overflow or NaN, used only to discharge
      hypotheses of generic statements and for a tie that binary64 shares.
    - Randomness.  [norm.rvs] and [uniform.rvs] draw from NumPy's process-wide
      generator.  Its state is threaded explicitly (class [RandomState]).
    - Library names.  [mcmc] and its two helpers refer to the globals [norm],
      [uniform] and [np].  The notebook's own import cell binds
      [scipy.stats.norm] under the name [gaussian]; the sampler is embedded
      with [norm] bound to that object, as its calls ([rvs] and [logpdf] with
      [loc] and [scale]) presuppose.  The methods used are parameters of the
      embedding.
    - Exceptions.  [np.ones] of a negative length raises [ValueError], an
      index outside an array raises [IndexError]; both are results here.
    - [print] and the defaults [μ_0=0.5], [n_samples=1000] of [mcmc] are left
      out: every argument is explicit. *)

From Stdlib Require Import ZArith QArith Reals Lra Lia List Permutation.
From Stdlib Require Floats.
From stdpp Require Import base option list.

Set Default Proof Using "Type".

(** ** Exceptions and the error monad *)

Inductive exn : Type := ValueError | IndexError.

Inductive result (A : Type) : Type :=
| Ok (a : A)
| Raise (e : exn).
Arguments Ok {A} a.
Arguments Raise {A} e.

#[global] Instance result_ret : MRet result := fun A a => Ok a.
#[global] Instance result_bind : MBind result := fun A B f m =>
  match m with
  | Ok a => f a
  | Raise e => Raise e
  end.
#[global] Instance result_fmap : FMap result := fun A B f m =>
  match m with
  | Ok a => Ok (f a)
  | Raise e => Raise e
  end.

(** [for x in xs: s = body(s, x)], stopping at the first exception. *)
Fixpoint for_each {A S : Type} (body : S -> A -> result S) (xs : list A) (s : S)
  : result S :=
  match xs with
  | [] => Ok s
  | x :: xs' => s' ← body s x; for_each body xs' s'
  end.

(** Python's [range(lo, hi)]; empty when [hi <= lo]. *)
Definition range (lo hi : Z) : list Z := seqZ lo (hi - lo).

(** ** One-dimensional NumPy arrays *)

(** An index [i] of an array of length [len]: negative indices count from the
    end, anything outside [-len .. len-1] raises [IndexError]. *)
Definition normalize_index (len : nat) (i : Z) : result nat :=
  let j := if (i <? 0)%Z then (i + Z.of_nat len)%Z else i in
  if ((0 <=? j)%Z && (j <? Z.of_nat len)%Z)%bool
  then Ok (Z.to_nat j)
  else Raise IndexError.

(** [a[i]] *)
Definition getitem {A : Type} (a : list A) (i : Z) : result A :=
  k ← normalize_index (length a) i;
  match a !! k with
  | Some x => Ok x
  | None => Raise IndexError
  end.

(** [a[i] = x] *)
Definition setitem {A : Type} (a : list A) (i : Z) (x : A) : result (list A) :=
  k ← normalize_index (length a) i;
  Ok (<[k := x]> a).

(** ** The numeric carrier and the random source *)

Class Numeric (num : Type) : Type := {
  (** a numeric literal of the source: [0.75], [0.1], [1], [0] *)
  lit : Q -> num;
  (** [np.nan] *)
  np_nan : num;
  add : num -> num -> num;
  sub : num -> num -> num;
  mul : num -> num -> num;
  (** [x > y] *)
  gt : num -> num -> bool;
  np_exp : num -> num;
  (** [np.sum] along the observation axis *)
  np_sum : list num -> num;
  (** [norm.logpdf(x, loc=.., scale=..)] *)
  norm_logpdf : num -> num -> num -> num
}.

Class RandomState (num rng : Type) : Type := {
  (** [norm.rvs(loc=.., scale=.., size=1)] *)
  norm_rvs : num -> num -> rng -> num * rng;
  (** [uniform.rvs(size=1, loc=.., scale=..)] *)
  uniform_rvs : num -> num -> rng -> num * rng
}.

(** [np.ones(n)] *)
Definition np_ones {num : Type} {NU : Numeric num} (n : Z) : result (list num) :=
  if (n <? 0)%Z then Raise ValueError else Ok (replicate (Z.to_nat n) (lit 1)).

(** ** The sampler *)

(** The parameter dictionary [dict(μ=.., σ=..)]. *)
Record par_dict (num : Type) : Type := { μ : num; σ : num }.
Arguments μ {num} p.
Arguments σ {num} p.

(** What one pass through the loop body looked at; kept beside the chain as a
    ghost log, it has no influence on the chain or on the random source
    (lemma [mcmc_body_sim] relates two passes whatever their logs). *)
Record iteration (num rng : Type) : Type := {
  it_index : Z;                       (* the loop variable [i] *)
  it_rng : rng;                       (* the random source on entry *)
  it_prop_par_dict : par_dict num;    (* [prop_par_dict] *)
  it_curr_par_dict : par_dict num;    (* [curr_par_dict] *)
  it_ratio : num;                     (* [ratio] *)
  it_uniform : option num             (* the uniform draw, when one was made *)
}.
Arguments it_index {num rng} i.
Arguments it_rng {num rng} i.
Arguments it_prop_par_dict {num rng} i.
Arguments it_curr_par_dict {num rng} i.
Arguments it_ratio {num rng} i.
Arguments it_uniform {num rng} i.

Record state (num rng : Type) : Type := {
  trace_μ : list num;                 (* the chain under construction *)
  rng_state : rng;                    (* the process-wide generator *)
  history : list (iteration num rng)  (* ghost: one entry per finished pass *)
}.
Arguments trace_μ {num rng} s.
Arguments rng_state {num rng} s.
Arguments history {num rng} s.

Section Sampler.
Context {num rng : Type} {NU : Numeric num} {RS : RandomState num rng}.

(** [np.sum(norm.logpdf(data, loc=param_dict['μ'], scale=param_dict['σ']), axis=1)]
    with [data] reshaped by [mcmc] to a single row: one sum, over all
    observations. *)
Definition get_log_lik (data : list num) (param_dict : par_dict num) : num :=
  np_sum ((fun x => norm_logpdf x (μ param_dict) (σ param_dict)) <$> data).

(** [norm.logpdf(par_dict['μ'], loc=loc, scale=scale)]; [mcmc] calls it with
    the defaults [loc=1], [scale=1]. *)
Definition get_log_prior (par_dict : par_dict num) (loc scale : num) : num :=
  norm_logpdf (μ par_dict) loc scale.

(** The end of a pass: the chain and generator as the branch left them, and
    the ghost entry of the pass. *)
Definition finish (st : state num rng) (i : Z) (prop curr : par_dict num)
    (ratio : num) (u : option num) (trace' : list num) (g : rng)
  : state num rng :=
  {| trace_μ := trace';
     rng_state := g;
     history := history st ++
       [ {| it_index := i; it_rng := rng_state st;
            it_prop_par_dict := prop; it_curr_par_dict := curr;
            it_ratio := ratio; it_uniform := u |} ] |}.

(** The body of [for i in range(1, n_samples)]. *)
Definition mcmc_body (data : list num) (σ0 : num)
    (st : state num rng) (i : Z) : result (state num rng) :=
  loc ← getitem (trace_μ st) (i - 1);
  let '(proposed_μ, g1) := norm_rvs loc (lit 0.1) (rng_state st) in
  let prop_par_dict := {| μ := proposed_μ; σ := σ0 |} in
  cur ← getitem (trace_μ st) (i - 1);
  let curr_par_dict := {| μ := cur; σ := σ0 |} in
  let log_prob_prop :=
    add (get_log_lik data prop_par_dict)
        (get_log_prior prop_par_dict (lit 1) (lit 1)) in
  let log_prob_curr :=
    add (get_log_lik data curr_par_dict)
        (get_log_prior curr_par_dict (lit 1) (lit 1)) in
  let ratio := np_exp (sub log_prob_prop log_prob_curr) in
  if gt ratio (lit 1) then
    (* accept proposal *)
    trace' ← setitem (trace_μ st) i proposed_μ;
    Ok (finish st i prop_par_dict curr_par_dict ratio None trace' g1)
  else
    (* evaluate low proba proposal *)
    let '(u, g2) := uniform_rvs (lit 0) (lit 1) g1 in
    if gt u ratio then
      (* reject proposal *)
      prev ← getitem (trace_μ st) (i - 1);
      trace' ← setitem (trace_μ st) i prev;
      Ok (finish st i prop_par_dict curr_par_dict ratio (Some u) trace' g2)
    else
      (* accept proposal *)
      trace' ← setitem (trace_μ st) i proposed_μ;
      Ok (finish st i prop_par_dict curr_par_dict ratio (Some u) trace' g2).

(** [mcmc(data, μ_0, n_samples)] with the generator in state [g]: the final
    state of the run, ghost log included. *)
Definition mcmc_run (data : list num) (μ_0 : num) (n_samples : Z) (g : rng)
  : result (state num rng) :=
  let σ0 := lit 0.75 in                 (* keep σ fixed for simplicity *)
  ones ← np_ones n_samples;
  let trace := mul np_nan <$> ones in   (* np.nan * np.ones(n_samples) *)
  trace ← setitem trace 0 μ_0;          (* start with a first guess *)
  for_each (mcmc_body data σ0) (range 1 n_samples)
           {| trace_μ := trace; rng_state := g; history := [] |}.

(** What [mcmc] returns: the chain. *)
Definition mcmc (data : list num) (μ_0 : num) (n_samples : Z) (g : rng)
  : result (list num) :=
  trace_μ <$> mcmc_run data μ_0 n_samples g.

End Sampler.

(** ** What a finished pass has done *)

Section Passes.
Context {num rng : Type} {NU : Numeric num} {RS : RandomState num rng}.

(** In the words of the specification: the unnormalised log-posterior of a
    candidate mean [m] is the sum over all observations of the Gaussian
    log-density with mean [m] and the fixed observation standard deviation,
    plus the Gaussian log-prior density of [m]. *)
Definition log_posterior (data : list num) (m : num) : num :=
  add (np_sum ((fun x => norm_logpdf x m (lit 0.75)) <$> data))
      (norm_logpdf m (lit 1) (lit 1)).

(** The unnormalised log-posterior as [mcmc] evaluates it at a parameter
    dictionary: [get_log_lik(data, d) + get_log_prior(d)]. *)
Definition log_prob (data : list num) (d : par_dict num) : num :=
  add (get_log_lik data d) (get_log_prior d (lit 1) (lit 1)).

(** The ghost entry [rec] describes pass [it_index rec] over [chain]: what
    was read, drawn and computed, and what the pass stored. *)
Definition iteration_ok (data : list num) (chain : list num)
    (rec : iteration num rng) : Prop :=
  exists cur : num,
    chain !! Z.to_nat (it_index rec - 1) = Some cur /\
    let draw := norm_rvs cur (lit 0.1) (it_rng rec) in
    it_prop_par_dict rec = {| μ := draw.1; σ := lit 0.75 |} /\
    it_curr_par_dict rec = {| μ := cur; σ := lit 0.75 |} /\
    it_ratio rec =
      np_exp (sub (log_prob data (it_prop_par_dict rec))
                  (log_prob data (it_curr_par_dict rec))) /\
    if gt (it_ratio rec) (lit 1) then
      it_uniform rec = None /\
      chain !! Z.to_nat (it_index rec) = Some draw.1
    else
      let u := (uniform_rvs (lit 0) (lit 1) draw.2).1 in
      it_uniform rec = Some u /\
      chain !! Z.to_nat (it_index rec) =
        Some (if gt u (it_ratio rec) then cur else draw.1).

(** The random source as the pass described by [rec] left it: after the
    proposal draw, and after the uniform draw when one was made. *)
Definition rng_after (rec : iteration num rng) : rng :=
  let draw := norm_rvs (μ (it_curr_par_dict rec)) (lit 0.1) (it_rng rec) in
  match it_uniform rec with
  | None => draw.2
  | Some _ => (uniform_rvs (lit 0) (lit 1) draw.2).2
  end.

(** Every pass of [hist] starts with the random source where the pass
    before it (or the caller, [g]) left it. *)
Fixpoint rng_threaded (g : rng) (hist : list (iteration num rng)) : Prop :=
  match hist with
  | [] => True
  | rec :: hist' => it_rng rec = g /\ rng_threaded (rng_after rec) hist'
  end.

(** The random source after all passes of [hist], started from [g]. *)
Definition final_rng (g : rng) (hist : list (iteration num rng)) : rng :=
  foldl (fun _ rec => rng_after rec) g hist.

(** The state after [k] passes of a run for [n] samples from [μ_0] with the
    random source initially [g]. *)
Definition loop_inv (data : list num) (μ_0 : num) (g : rng) (n k : nat)
    (st : state num rng) : Prop :=
  length (trace_μ st) = n /\
  trace_μ st !! 0%nat = Some μ_0 /\
  length (history st) = k /\
  rng_threaded g (history st) /\
  rng_state st = final_rng g (history st) /\
  forall j : nat, j < k ->
    exists rec, history st !! j = Some rec /\
                it_index rec = Z.of_nat (S j) /\
                iteration_ok data (trace_μ st) rec.

End Passes.

(** Two runs on two random sources keep the same chain while the sources
    stay related ([sim]); the ghost logs are not compared. *)
Definition state_sim {num rng1 rng2 : Type} (sim : rng1 -> rng2 -> Prop)
    (st1 : state num rng1) (st2 : state num rng2) : Prop :=
  trace_μ st1 = trace_μ st2 /\ sim (rng_state st1) (rng_state st2).

(** Two results agree: the same exception, or values related by [P]. *)
Definition result_rel {A B : Type} (P : A -> B -> Prop)
    (r1 : result A) (r2 : result B) : Prop :=
  match r1, r2 with
  | Ok a, Ok b => P a b
  | Raise e1, Raise e2 => e1 = e2
  | _, _ => False
  end.

(** ** Exact reals and a substituted random source *)

(** [x > y] on the reals. *)
Definition Rgtb (x y : R) : bool := if Rgt_dec x y then true else false.

(** [scipy.stats.norm.logpdf]: the standard normal log-density
    [-y**2 / 2 - log(sqrt(2 pi))] at [y = (x - loc) / scale], minus
    [log(scale)]. *)
Definition norm_logpdf_R (x loc scale : R) : R :=
  (- ((x - loc) / scale) ^ 2 / 2 - ln (sqrt (2 * PI)) - ln scale)%R.

(** The reals as carrier: an idealisation of the program's arithmetic, with
    no rounding, no overflow and no NaN ([np_nan] is a placeholder, which a
    chain of a finished run never holds), and with a sum that does not depend
    on the order of its terms.  What holds on it alone says nothing of the
    float64 program; it serves to discharge the hypotheses of statements made
    for every carrier. *)
#[global] Instance real_numeric : Numeric R := {|
  lit := Q2R;
  np_nan := 0%R;
  add := Rplus;
  sub := Rminus;
  mul := Rmult;
  gt := Rgtb;
  np_exp := exp;
  np_sum := foldr Rplus 0%R;
  norm_logpdf := norm_logpdf_R
|}.

(** A generator replaced by a tape of canned variates: each draw takes the
    next one, scaled and shifted as SciPy does ([variate * scale + loc]); an
    exhausted tape yields the variate [0]. *)
Definition tape : Type := list R.

Definition next_variate (loc scale : R) (t : tape) : R * tape :=
  match t with
  | [] => (loc, [])
  | z :: t' => ((z * scale + loc)%R, t')
  end.

#[global] Instance tape_random : RandomState R tape := {|
  norm_rvs := next_variate;
  uniform_rvs := next_variate
|}.

(** A second substitute: the same tape behind a counter of the draws made. *)
Definition counted_tape : Type := (tape * nat)%type.

Definition next_counted (loc scale : R) (t : counted_tape) : R * counted_tape :=
  let '(v, t') := next_variate loc scale t.1 in (v, (t', S t.2)).

#[global] Instance counted_tape_random : RandomState R counted_tape := {|
  norm_rvs := next_counted;
  uniform_rvs := next_counted
|}.

(** A small concrete run: two observations, the initial mean of the
    notebook, three samples, and a tape of four variates. *)
Definition example_data : list R := [1.5; 0.5]%R.
Definition example_μ_0 : R := 0.5%R.
Definition example_n_samples : Z := 3.
Definition example_tape : tape := [1; 0.25; -1; 0.5]%R.

(** ** The chain as the orbit of one move, and the notebook's runs *)

Section Transition.
Context {num rng : Type} {NU : Numeric num} {RS : RandomState num rng}.

(** One Metropolis move, read off the loop body of [mcmc] with the array left
    out: from the current mean and the random source to the next mean and the
    random source after the draws. *)
Definition transition (data : list num) (s : num * rng) : num * rng :=
  let '(proposed, g1) := norm_rvs s.1 (lit 0.1) s.2 in
  let ratio :=
    np_exp (sub (log_prob data {| μ := proposed; σ := lit 0.75 |})
                (log_prob data {| μ := s.1; σ := lit 0.75 |})) in
  if gt ratio (lit 1) then (proposed, g1)
  else
    let '(u, g2) := uniform_rvs (lit 0) (lit 1) g1 in
    (if gt u ratio then s.1 else proposed, g2).

(** [k] moves from the initial mean [μ_0] and the random source [g]. *)
Fixpoint orbit (data : list num) (μ_0 : num) (g : rng) (k : nat) : num * rng :=
  match k with
  | O => (μ_0, g)
  | S k' => transition data (orbit data μ_0 g k')
  end.

(** Cells [13] and [16] of the notebook:
    [trace = mcmc(data=..., n_samples=2000)], with [μ_0] left to its default
    [0.5]. *)
Definition notebook_trace (data : list num) (g : rng) : result (list num) :=
  mcmc data (lit 0.5) 2000 g.

End Transition.

(** Python's slice [a[start:]]: a negative [start] counts from the end, and a
    start outside the array is clipped, never an error. *)
Definition slice_from {A : Type} (a : list A) (start : Z) : list A :=
  let k := if (start <? 0)%Z
           then Z.max 0 (start + Z.of_nat (length a))
           else start in
  drop (Z.to_nat k) a.

(** ** The program's arithmetic: IEEE-754 binary64 *)

Module Binary64.
Import Floats.
Local Open Scope float_scope.

(** An integer as a float (exact below [2^53]). *)
Definition of_Z (z : Z) : float :=
  match z with
  | Z0 => 0
  | Zpos p => of_uint63 (Uint63.of_Z (Zpos p))
  | Zneg p => - of_uint63 (Uint63.of_Z (Zpos p))
  end.

(** A decimal literal of the source: the float nearest to it (one correctly
    rounded division of two exactly represented integers). *)
Definition lit64 (q : Q) : float := of_Z (Qnum q) / of_Z (Zpos (Qden q)).

(** The nearest integer, for [|z| < 2^51]. *)
Definition round_to_integer (z : float) : float := (z + 0x1.8p52) - 0x1.8p52.

(** The integer an integer-valued float stands for. *)
Definition to_Z (k : float) : Z :=
  match Prim2SF k with
  | S754_finite s m e =>
      let v := Z.shiftl (Zpos m) e in if s then Z.opp v else v
  | _ => 0%Z
  end.

(** [np.exp] on one float64.  NumPy promises no particular last digit, only a
    result within about an ulp of the exponential; [exp64] is such a function
    (reduction by multiples of [ln 2], then the rational approximation of
    fdlibm), and like every implementation it gives [inf] above 709.78.., [0]
    below -745.13.., [1] at 0 and NaN at NaN.  Runs that depend on its last
    digits keep a margin of several ulps. *)
Definition exp64 (x : float) : float :=
  if is_nan x then x
  else if 0x1.62e42fefa39efp+9 <? x then infinity
  else if x <? -0x1.74910d52d3051p+9 then 0
  else if abs x <? 0x1p-28 then 1 + x
  else
    let k := if abs x <=? 0x1.62e42fefa39efp-2 then 0
             else round_to_integer (0x1.71547652b82fep+0 * x) in
    let hi := x - k * 0x1.62e42fee00000p-1 in
    let lo := k * 0x1.a39ef35793c76p-33 in
    let r := hi - lo in
    let t := r * r in
    let c := r - t * (0x1.555555555553ep-3
                 + t * (-0x1.6c16c16bebd93p-9
                 + t * (0x1.1566aaf25de2cp-14
                 + t * (-0x1.bbd41c5d26bf1p-20
                 + t * 0x1.6376972bea4d0p-25)))) in
    let y := if k =? 0 then 1 - ((r * c) / (c - 2) - r)
             else 1 - ((lo - (r * c) / (2 - c)) - hi) in
    Z.ldexp y (to_Z k).

(** [np.log] on one float64, within about an ulp as well (fdlibm's scheme);
    SciPy takes the logarithm of [scale] and of [sqrt(2 pi)] with it. *)
Definition log64 (x : float) : float :=
  if is_nan x then x
  else if x <? 0 then nan
  else if x =? 0 then neg_infinity
  else if x =? infinity then infinity
  else
    let '(m0, e0) := Z.frexp x in
    let '(m, e) := if m0 <? 0x1.6a09e667f3bcdp-1
                   then (2 * m0, (e0 - 1)%Z) else (m0, e0) in
    let f := m - 1 in
    let dk := of_Z e in
    let hfsq := 0.5 * f * f in
    let s := f / (2 + f) in
    let z := s * s in
    let w := z * z in
    let t1 := w * (0x1.999999997fa04p-2
                   + w * (0x1.c71c51d8e78afp-3 + w * 0x1.39a09d078c69fp-3)) in
    let t2 := z * (0x1.5555555555593p-1
                   + w * (0x1.2492494229359p-2
                   + w * (0x1.7466496cb03dep-3 + w * 0x1.2f112df3e5244p-3))) in
    let R := t2 + t1 in
    s * (hfsq + R) + dk * 0x1.a39ef35793c76p-33 - hfsq + f
    + dk * 0x1.62e42fee00000p-1.

(** NumPy's pairwise summation of a contiguous row: fewer than 8 terms are
    added from left to right; up to 128 terms go through 8 accumulators, added
    pairwise at the end, then the terms past the last full block of 8; longer
    rows are split in two near the middle, at a multiple of 8. *)
Fixpoint accumulate8 (fuel : nat) (r rest : list float)
  : list float * list float :=
  match fuel with
  | O => (r, rest)
  | S fuel' =>
      if (8 <=? length rest)%nat
      then accumulate8 fuel' (zip_with add r (take 8 rest)) (drop 8 rest)
      else (r, rest)
  end.

Definition combine8 (r : list float) : float :=
  match r with
  | [r0; r1; r2; r3; r4; r5; r6; r7] =>
      ((r0 + r1) + (r2 + r3)) + ((r4 + r5) + (r6 + r7))
  | _ => 0
  end.

Fixpoint pairwise_sum (fuel : nat) (a : list float) : float :=
  let n := length a in
  if (n <? 8)%nat then foldl add 0 a
  else if (n <=? 128)%nat then
    let '(r, rest) := accumulate8 n (take 8 a) (drop 8 a) in
    foldl add (combine8 r) rest
  else
    match fuel with
    | O => 0
    | S fuel' =>
        let n2 := (n / 2 - (n / 2) mod 8)%nat in
        pairwise_sum fuel' (take n2 a) + pairwise_sum fuel' (drop n2 a)
    end.

(** [np.sum(row)]: the reduction starts from the identity [0] and adds the
    pairwise sum of the row. *)
Definition np_sum64 (a : list float) : float := 0 + pairwise_sum (length a) a.

(** [log(sqrt(2 pi))], SciPy's [_norm_pdf_logC], and [sqrt(2 pi)], its
    [_norm_pdf_C]. *)
Definition norm_pdf_C : float := sqrt (2 * 0x1.921fb54442d18p+1).
Definition norm_pdf_logC : float := log64 norm_pdf_C.

(** [scipy.stats.norm.logpdf(x, loc, scale)]:
    [-y**2 / 2.0 - _norm_pdf_logC - log(scale)] at [y = (x - loc) / scale]. *)
Definition norm_logpdf64 (x loc scale : float) : float :=
  let y := (x - loc) / scale in
  - (y * y) / 2 - norm_pdf_logC - log64 scale.

(** [scipy.stats.norm.pdf(x, loc, scale)]:
    [exp(-y**2 / 2.0) / _norm_pdf_C / scale]. *)
Definition norm_pdf64 (x loc scale : float) : float :=
  let y := (x - loc) / scale in
  exp64 (- (y * y) / 2) / norm_pdf_C / scale.

(** The carrier, field by field: [lit], [np_nan], [add], [sub], [mul],
    [gt] (an IEEE comparison, false when either side is NaN), [np_exp],
    [np_sum], [norm_logpdf]. *)
#[export] Instance float64_numeric : Numeric float :=
  Build_Numeric float
    lit64 nan PrimFloat.add PrimFloat.sub PrimFloat.mul
    (fun x y => y <? x) exp64 np_sum64 norm_logpdf64.

(** A generator replaced by a tape of canned variates, as [tape] above, in
    float64: SciPy returns [variate * scale + loc]. *)
Definition ftape : Type := list float.

Definition next_variate64 (loc scale : float) (t : ftape) : float * ftape :=
  match t with
  | [] => (loc, [])
  | z :: t' => (z * scale + loc, t')
  end.

#[export] Instance ftape_random : RandomState float ftape :=
  Build_RandomState float ftape next_variate64 next_variate64.

(** Three observations in two orders, and a uniform variate that lies between
    the two acceptance ratios they lead to from the mean 0.5 to the proposal
    0, five ulps and more away from either. *)
Definition observations_a : list float :=
  [-0x1.68f5c28f5c28fp+0; 0x1.ccccccccccccdp+0; 0x1.70a3d70a3d70ap-2].
Definition observations_b : list float :=
  [0x1.70a3d70a3d70ap-2; -0x1.68f5c28f5c28fp+0; 0x1.ccccccccccccdp+0].
Definition separating_uniform : float := 0x1.5fe4615e98e89p-1.

End Binary64.

(** ** Array accesses, ranges and loops *)

Lemma normalize_index_in_bounds (len : nat) (k : nat) :
  k < len -> normalize_index len (Z.of_nat k) = Ok k.
Proof.
  intros Hk. unfold normalize_index.
  destruct (Z.ltb_spec (Z.of_nat k) 0) as [Hneg | _]; [lia |].
  destruct (Z.leb_spec 0 (Z.of_nat k)) as [_ | Hneg]; [| lia].
  destruct (Z.ltb_spec (Z.of_nat k) (Z.of_nat len)) as [_ | Hge]; [| lia].
  simpl. by rewrite Nat2Z.id.
Qed.

Lemma getitem_in_bounds {A : Type} (a : list A) (k : nat) (x : A) :
  a !! k = Some x -> getitem a (Z.of_nat k) = Ok x.
Proof.
  intros Hx. unfold getitem.
  rewrite normalize_index_in_bounds by (by eapply lookup_lt_Some).
  simpl. by rewrite Hx.
Qed.

Lemma setitem_in_bounds {A : Type} (a : list A) (k : nat) (x : A) :
  k < length a -> setitem a (Z.of_nat k) x = Ok (<[k := x]> a).
Proof.
  intros Hk. unfold setitem. by rewrite normalize_index_in_bounds.
Qed.

Lemma setitem_empty {A : Type} (i : Z) (x : A) :
  setitem (@nil A) i x = Raise IndexError.
Proof.
  unfold setitem, normalize_index.
  destruct (Z.ltb_spec i 0) as [Hneg | Hpos].
  - destruct (Z.leb_spec 0 (i + Z.of_nat (length (@nil A)))) as [Hle | _];
      [simpl in Hle; lia | reflexivity].
  - destruct (Z.ltb_spec i (Z.of_nat (length (@nil A)))) as [Hlt | _];
      [simpl in Hlt; lia |].
    rewrite andb_false_r. reflexivity.
Qed.

Lemma range_first (lo hi : Z) :
  (lo < hi)%Z -> range lo hi = lo :: range (lo + 1) hi.
Proof.
  intros Hlt. unfold range. rewrite seqZ_cons by lia.
  f_equal. f_equal; lia.
Qed.

Lemma range_empty (lo hi : Z) : (hi <= lo)%Z -> range lo hi = [].
Proof.
  intros Hle. unfold range, seqZ.
  by replace (Z.to_nat (hi - lo)) with 0%nat by lia.
Qed.

Lemma for_each_ext {A S : Type} (body body' : S -> A -> result S) (xs : list A) (s : S) :
  (forall s x, body s x = body' s x) ->
  for_each body xs s = for_each body' xs s.
Proof.
  intros Hext. revert s. induction xs as [| x xs IH]; intros s; simpl; [done |].
  rewrite Hext. destruct (body' s x) as [s' | e]; simpl; [apply IH | done].
Qed.

(** ** The loop invariant *)

Section Invariant.
Context {num rng : Type} {NU : Numeric num} {RS : RandomState num rng}.
Variables (data : list num) (μ_0 : num) (g : rng).

Lemma iteration_ok_insert (chain : list num) (rec : iteration num rng)
    (i : nat) (v : num) :
  (0 < it_index rec < Z.of_nat i)%Z ->
  iteration_ok data chain rec -> iteration_ok data (<[i := v]> chain) rec.
Proof.
  intros Hi (cur & Hcur & Hprop & Hcurr & Hratio & Hdec).
  exists cur. rewrite !list_lookup_insert_ne by lia.
  repeat split; assumption.
Qed.

Lemma final_rng_snoc (g0 : rng) (hist : list (iteration num rng))
    (rec : iteration num rng) :
  final_rng g0 (hist ++ [rec]) = rng_after rec.
Proof. unfold final_rng. by rewrite foldl_app. Qed.

Lemma rng_threaded_snoc (g0 : rng) (hist : list (iteration num rng))
    (rec : iteration num rng) :
  rng_threaded g0 hist -> it_rng rec = final_rng g0 hist ->
  rng_threaded g0 (hist ++ [rec]).
Proof.
  revert g0. induction hist as [| r hist IH]; intros g0; simpl.
  - intros _ Hrec. by split.
  - intros [Hr Hrest] Hrec. split; [exact Hr |]. by apply IH.
Qed.

(** One pass, started inside the chain: it raises nothing, writes entry
    [S k] only, and logs an entry that describes it. *)
Lemma mcmc_body_step (st : state num rng) (k : nat) (cur : num) :
  trace_μ st !! k = Some cur ->
  S k < length (trace_μ st) ->
  exists (v : num) (rec : iteration num rng),
    mcmc_body data (lit 0.75) st (Z.of_nat (S k)) =
      Ok {| trace_μ := <[S k := v]> (trace_μ st);
            rng_state := rng_after rec;
            history := history st ++ [rec] |} /\
    it_index rec = Z.of_nat (S k) /\
    it_rng rec = rng_state st /\
    iteration_ok data (<[S k := v]> (trace_μ st)) rec.
Proof.
  intros Hcur Hlen. unfold mcmc_body.
  replace (Z.of_nat (S k) - 1)%Z with (Z.of_nat k) by lia.
  rewrite (getitem_in_bounds _ _ _ Hcur). simpl.
  destruct (norm_rvs cur (lit 0.1) (rng_state st)) as [proposed g1] eqn:Hdraw.
  fold (log_prob data {| μ := proposed; σ := lit 0.75 |}).
  fold (log_prob data {| μ := cur; σ := lit 0.75 |}).
  set (ratio := np_exp (sub _ _)).
  rewrite !setitem_in_bounds by assumption. simpl.
  assert (Hread : forall v, <[S k := v]> (trace_μ st) !! k = Some cur)
    by (intros v; rewrite list_lookup_insert_ne by lia; exact Hcur).
  assert (Hwritten : forall v, <[S k := v]> (trace_μ st) !! S k = Some v)
    by (intros v; by apply list_lookup_insert_eq).
  assert (Hpass : forall (u : option num) (v : num) (g' : rng),
    (if gt ratio (lit 1) then u = None /\ v = proposed /\ g' = g1
     else let draw := uniform_rvs (lit 0) (lit 1) g1 in
          u = Some draw.1 /\ g' = draw.2 /\
          v = if gt draw.1 ratio then cur else proposed) ->
    let rec := {| it_index := Z.of_nat (S k); it_rng := rng_state st;
                  it_prop_par_dict := {| μ := proposed; σ := lit 0.75 |};
                  it_curr_par_dict := {| μ := cur; σ := lit 0.75 |};
                  it_ratio := ratio; it_uniform := u |} in
    g' = rng_after rec /\
    iteration_ok data (<[S k := v]> (trace_μ st)) rec).
  { intros u v g' Hbranch rec. split.
    - unfold rng_after. simpl. rewrite Hdraw. simpl.
      destruct (gt ratio (lit 1)).
      + by destruct Hbranch as (-> & _ & ->).
      + by destruct Hbranch as (-> & -> & _).
    - exists cur. simpl.
      replace (Z.of_nat (S k) - 1)%Z with (Z.of_nat k) by lia.
      rewrite !Nat2Z.id, Hdraw. simpl.
      split; [apply Hread |]. do 3 (split; [reflexivity |]).
      destruct (gt ratio (lit 1)).
      + destruct Hbranch as (-> & -> & _). by split.
      + destruct Hbranch as (-> & _ & ->). by split. }
  destruct (gt ratio (lit 1)) eqn:Hgt1.
  - destruct (Hpass None proposed g1) as [Hg Hok]; [done |].
    eexists proposed, _. rewrite <- Hg. by repeat split.
  - destruct (uniform_rvs (lit 0) (lit 1) g1) as [u g2] eqn:Hu.
    destruct (gt u ratio) eqn:Hgtu; simpl.
    + destruct (Hpass (Some u) cur g2) as [Hg Hok];
        [simpl; by rewrite Hgtu |].
      eexists cur, _. rewrite <- Hg. by repeat split.
    + destruct (Hpass (Some u) proposed g2) as [Hg Hok];
        [simpl; by rewrite Hgtu |].
      eexists proposed, _. rewrite <- Hg. by repeat split.
Qed.

Lemma loop_inv_step (n k : nat) (st : state num rng) :
  loop_inv data μ_0 g n k st -> S k < n ->
  exists st', mcmc_body data (lit 0.75) st (Z.of_nat (S k)) = Ok st' /\
              loop_inv data μ_0 g n (S k) st'.
Proof.
  intros (Hlen & Hfirst & Hhist & Hthread & Hrng & Hdone) Hk.
  destruct (lookup_lt_is_Some_2 (trace_μ st) k) as [cur Hcur]; [lia |].
  destruct (mcmc_body_step st k cur Hcur)
    as (v & rec & Hbody & Hidx & Hentry & Hrec); [lia |].
  eexists. split; [exact Hbody |].
  repeat split; simpl.
  - by rewrite length_insert.
  - by rewrite list_lookup_insert_ne by lia.
  - rewrite length_app. simpl. lia.
  - apply rng_threaded_snoc; [assumption | congruence].
  - by rewrite final_rng_snoc.
  - intros j Hj. destruct (decide (j = k)) as [-> | Hne].
    + exists rec. rewrite lookup_app_r by lia.
      rewrite Hhist, Nat.sub_diag. auto.
    + destruct (Hdone j) as (rec' & Hlook & Hidx' & Hrec'); [lia |].
      exists rec'. rewrite lookup_app_l by lia.
      repeat split; [assumption | assumption |].
      apply iteration_ok_insert; [lia | assumption].
Qed.

Lemma loop_runs (n count k : nat) (st : state num rng) :
  loop_inv data μ_0 g n k st -> k + count < n ->
  exists st',
    for_each (mcmc_body data (lit 0.75))
             (range (Z.of_nat (S k)) (Z.of_nat (S (k + count)))) st = Ok st' /\
    loop_inv data μ_0 g n (k + count) st'.
Proof.
  revert k st. induction count as [| count IH]; intros k st Hinv Hk.
  - rewrite range_empty by lia. exists st. by rewrite Nat.add_0_r.
  - rewrite range_first by lia. simpl.
    destruct (loop_inv_step n k st Hinv) as (st1 & -> & Hinv1); [lia |].
    simpl. destruct (IH (S k) st1 Hinv1) as (st' & Hloop & Hinv'); [lia |].
    exists st'. split.
    + rewrite <- Hloop. f_equal. unfold range. f_equal; lia.
    + by replace (k + S count) with (S k + count) by lia.
Qed.

(** A run for at least one sample raises nothing and ends in a state that
    satisfies the invariant for all [n_samples - 1] passes. *)
Lemma mcmc_run_inv (n_samples : Z) :
  (1 <= n_samples)%Z ->
  exists st, mcmc_run data μ_0 n_samples g = Ok st /\
             loop_inv data μ_0 g (Z.to_nat n_samples) (Z.to_nat n_samples - 1) st.
Proof.
  intros Hn. unfold mcmc_run, np_ones.
  destruct (Z.ltb_spec n_samples 0) as [Hneg | _]; [lia |]. simpl.
  set (blank := mul np_nan <$> replicate (Z.to_nat n_samples) (lit 1)).
  assert (Hblank : length blank = Z.to_nat n_samples)
    by (unfold blank; by rewrite length_fmap, length_replicate).
  change 0%Z with (Z.of_nat 0).
  rewrite setitem_in_bounds by lia. simpl.
  set (st0 := {| trace_μ := <[0%nat := μ_0]> blank; rng_state := g; history := [] |}).
  assert (Hinv0 : loop_inv data μ_0 g (Z.to_nat n_samples) 0 st0).
  { repeat split; simpl.
    - by rewrite length_insert.
    - apply list_lookup_insert_eq. lia.
    - intros j Hj. lia. }
  destruct (loop_runs (Z.to_nat n_samples) (Z.to_nat n_samples - 1) 0 st0 Hinv0)
    as (st & Hloop & Hinv); [lia |].
  exists st. split; [| exact Hinv].
  rewrite <- Hloop. f_equal. unfold range. f_equal; lia.
Qed.

(** The invariant of a finished run, with Python's indices. *)
Lemma mcmc_run_passes (n_samples : Z) :
  (1 <= n_samples)%Z ->
  exists st,
    mcmc_run data μ_0 n_samples g = Ok st /\
    Z.of_nat (length (trace_μ st)) = n_samples /\
    trace_μ st !! 0%nat = Some μ_0 /\
    Z.of_nat (length (history st)) = (n_samples - 1)%Z /\
    rng_threaded g (history st) /\
    forall i : Z, (1 <= i < n_samples)%Z ->
      exists rec, history st !! Z.to_nat (i - 1) = Some rec /\
                  it_index rec = i /\
                  iteration_ok data (trace_μ st) rec.
Proof.
  intros Hn.
  destruct (mcmc_run_inv n_samples Hn)
    as (st & Hrun & Hlen & Hfirst & Hhist & Hthread & _ & Hdone).
  exists st. repeat split; [assumption | lia | assumption | lia | assumption |].
  intros i Hi. destruct (Hdone (Z.to_nat (i - 1))) as (rec & Hrec & Hidx & Hok);
    [lia |].
  exists rec. repeat split; [assumption | lia | assumption].
Qed.

End Invariant.

(** ** The sampler on any carrier and any random source *)

Section Claims.
Context {num rng : Type} {NU : Numeric num} {RS : RandomState num rng}.

(** C1 (as the code has it): in every pass [i] with [1 <= i <= n_samples - 1],
    when the acceptance ratio exceeds 1 no uniform value is drawn and chain
    entry [i] becomes the proposal; otherwise a uniform value [u] is drawn,
    the previous chain value is retained when [u > ratio], and the proposal
    is accepted in every other case, equality of [u] and the ratio included. *)
Theorem mcmc_acceptance_rule (data : list num) (μ_0 : num)
    (n_samples : Z) (g : rng) :
  (1 <= n_samples)%Z ->
  exists st,
    mcmc_run data μ_0 n_samples g = Ok st /\
    forall i : Z, (1 <= i < n_samples)%Z ->
      exists rec prev,
        history st !! Z.to_nat (i - 1) = Some rec /\
        it_index rec = i /\
        trace_μ st !! Z.to_nat (i - 1) = Some prev /\
        let draw := norm_rvs prev (lit 0.1) (it_rng rec) in
        if gt (it_ratio rec) (lit 1) then
          it_uniform rec = None /\
          trace_μ st !! Z.to_nat i = Some draw.1
        else
          exists u,
            it_uniform rec = Some u /\
            u = (uniform_rvs (lit 0) (lit 1) draw.2).1 /\
            trace_μ st !! Z.to_nat i =
              Some (if gt u (it_ratio rec) then prev else draw.1).
Proof.
  intros Hn.
  destruct (mcmc_run_passes data μ_0 g n_samples Hn)
    as (st & Hrun & _ & _ & _ & _ & Hpass).
  exists st. split; [assumption |]. intros i Hi.
  destruct (Hpass i Hi) as (rec & Hrec & Hidx & prev & Hprev & _ & _ & _ & Hdec).
  rewrite Hidx in Hprev, Hdec.
  exists rec, prev. repeat split; try assumption.
  simpl. destruct (gt (it_ratio rec) (lit 1)); [exact Hdec |].
  destruct Hdec as [Hu Hstore]. eexists. repeat split; [exact Hu | exact Hstore].
Qed.

(** C2: in every pass the acceptance ratio is the exponential of
    [L(proposed) - L(previous)], with [L] the log-posterior of the
    specification: the summed Gaussian log-density of the observations at
    the fixed standard deviation plus the Gaussian log-prior density. *)
Theorem mcmc_ratio_is_exp_of_log_posterior_difference (data : list num) (μ_0 : num)
    (n_samples : Z) (g : rng) :
  (1 <= n_samples)%Z ->
  exists st,
    mcmc_run data μ_0 n_samples g = Ok st /\
    forall i : Z, (1 <= i < n_samples)%Z ->
      exists rec prev,
        history st !! Z.to_nat (i - 1) = Some rec /\
        it_index rec = i /\
        trace_μ st !! Z.to_nat (i - 1) = Some prev /\
        let proposed := (norm_rvs prev (lit 0.1) (it_rng rec)).1 in
        it_ratio rec =
          np_exp (sub (log_posterior data proposed) (log_posterior data prev)).
Proof.
  intros Hn.
  destruct (mcmc_run_passes data μ_0 g n_samples Hn)
    as (st & Hrun & _ & _ & _ & _ & Hpass).
  exists st. split; [assumption |]. intros i Hi.
  destruct (Hpass i Hi)
    as (rec & Hrec & Hidx & prev & Hprev & Hprop & Hcurr & Hratio & _).
  rewrite Hidx in Hprev.
  exists rec, prev. repeat split; try assumption.
  simpl. rewrite Hratio, Hprop, Hcurr. reflexivity.
Qed.

(** C3: for every observation sequence, initial mean and [n_samples >= 1]
    the sampler raises nothing and returns a chain of exactly [n_samples]
    entries. *)
Theorem mcmc_returns_chain_of_requested_length (data : list num) (μ_0 : num)
    (n_samples : Z) (g : rng) :
  (1 <= n_samples)%Z ->
  exists chain,
    mcmc data μ_0 n_samples g = Ok chain /\
    Z.of_nat (length chain) = n_samples.
Proof.
  intros Hn.
  destruct (mcmc_run_passes data μ_0 g n_samples Hn) as (st & Hrun & Hlen & _).
  exists (trace_μ st). unfold mcmc. rewrite Hrun. split; [reflexivity | exact Hlen].
Qed.

(** C4: for [n_samples >= 1], entry 0 of the returned chain is the supplied
    initial mean. *)
Theorem mcmc_first_entry_is_initial_mean (data : list num) (μ_0 : num)
    (n_samples : Z) (g : rng) :
  (1 <= n_samples)%Z ->
  exists chain,
    mcmc data μ_0 n_samples g = Ok chain /\
    chain !! 0%nat = Some μ_0.
Proof.
  intros Hn.
  destruct (mcmc_run_passes data μ_0 g n_samples Hn)
    as (st & Hrun & _ & Hfirst & _).
  exists (trace_μ st). unfold mcmc. rewrite Hrun. split; [reflexivity | exact Hfirst].
Qed.

(** C5: for every [i] from 1 to [n_samples - 1], chain entry [i] is either
    chain entry [i-1] or the value drawn from the proposal distribution
    (centred at entry [i-1], scale 0.1) in pass [i], and nothing else. *)
Theorem mcmc_entry_is_previous_or_proposal (data : list num) (μ_0 : num)
    (n_samples : Z) (g : rng) :
  (1 <= n_samples)%Z ->
  exists st,
    mcmc_run data μ_0 n_samples g = Ok st /\
    rng_threaded g (history st) /\
    forall i : Z, (1 <= i < n_samples)%Z ->
      exists rec prev,
        history st !! Z.to_nat (i - 1) = Some rec /\
        it_index rec = i /\
        trace_μ st !! Z.to_nat (i - 1) = Some prev /\
        let proposed := (norm_rvs prev (lit 0.1) (it_rng rec)).1 in
        (trace_μ st !! Z.to_nat i = Some prev \/
         trace_μ st !! Z.to_nat i = Some proposed).
Proof.
  intros Hn.
  destruct (mcmc_run_passes data μ_0 g n_samples Hn)
    as (st & Hrun & _ & _ & _ & Hthread & Hpass).
  exists st. split; [assumption |]. split; [assumption |]. intros i Hi.
  destruct (Hpass i Hi) as (rec & Hrec & Hidx & prev & Hprev & _ & _ & _ & Hdec).
  rewrite Hidx in Hprev, Hdec.
  exists rec, prev. repeat split; try assumption.
  simpl. destruct (gt (it_ratio rec) (lit 1)).
  - right. apply Hdec.
  - destruct Hdec as [_ Hstore]. rewrite Hstore.
    destruct (gt _ (it_ratio rec)); [by left | by right].
Qed.

(** C8: a run makes [n_samples - 1] passes, and in every one of them both
    likelihood evaluations, at the proposed and at the current mean, go
    through a parameter dictionary whose standard deviation is the one
    constant 0.75. *)
Theorem mcmc_sigma_fixed (data : list num) (μ_0 : num)
    (n_samples : Z) (g : rng) :
  (1 <= n_samples)%Z ->
  exists st,
    mcmc_run data μ_0 n_samples g = Ok st /\
    Z.of_nat (length (history st)) = (n_samples - 1)%Z /\
    forall rec, rec ∈ history st ->
      σ (it_prop_par_dict rec) = lit 0.75 /\
      σ (it_curr_par_dict rec) = lit 0.75 /\
      it_ratio rec =
        np_exp (sub (add (get_log_lik data (it_prop_par_dict rec))
                         (get_log_prior (it_prop_par_dict rec) (lit 1) (lit 1)))
                    (add (get_log_lik data (it_curr_par_dict rec))
                         (get_log_prior (it_curr_par_dict rec) (lit 1) (lit 1)))).
Proof.
  intros Hn.
  destruct (mcmc_run_passes data μ_0 g n_samples Hn)
    as (st & Hrun & _ & _ & Hhist & _ & Hpass).
  exists st. split; [assumption |]. split; [assumption |].
  intros rec Hin. apply list_elem_of_lookup in Hin as [j Hj].
  assert (Hjlt : j < length (history st)) by (by eapply lookup_lt_Some).
  destruct (Hpass (Z.of_nat (S j))) as (rec' & Hrec' & _ & Hok); [lia |].
  replace (Z.to_nat (Z.of_nat (S j) - 1)) with j in Hrec' by lia.
  assert (rec' = rec) as -> by congruence.
  destruct Hok as (cur & _ & Hprop & Hcurr & Hratio & _).
  split; [by rewrite Hprop |]. split; [by rewrite Hcurr | exact Hratio].
Qed.

(** C9: with [n_samples = 0] the chain has length zero, the write of the
    initial mean to its entry 0 is out of bounds, and the call raises
    [IndexError] instead of returning an empty chain; with
    [n_samples >= 1] no access raises, and every pass writes at an index
    inside the chain. *)
Theorem mcmc_zero_samples_raises_and_writes_in_bounds
    (data : list num) (μ_0 : num) (g : rng) :
  (np_ones (num := num) 0 = Ok [] /\
   setitem (@nil num) 0 μ_0 = Raise IndexError /\
   mcmc data μ_0 0 g = Raise IndexError) /\
  forall n_samples : Z, (1 <= n_samples)%Z ->
    exists st,
      mcmc_run data μ_0 n_samples g = Ok st /\
      Z.of_nat (length (trace_μ st)) = n_samples /\
      forall rec, rec ∈ history st -> (0 < it_index rec < n_samples)%Z.
Proof.
  split.
  - split; [reflexivity |]. split; [apply setitem_empty | reflexivity].
  - intros n_samples Hn.
    destruct (mcmc_run_passes data μ_0 g n_samples Hn)
      as (st & Hrun & Hlen & _ & Hhist & _ & Hpass).
    exists st. split; [assumption |]. split; [assumption |].
    intros rec Hin. apply list_elem_of_lookup in Hin as [j Hj].
    assert (Hjlt : j < length (history st)) by (by eapply lookup_lt_Some).
    destruct (Hpass (Z.of_nat (S j))) as (rec' & Hrec' & Hidx & _); [lia |].
    replace (Z.to_nat (Z.of_nat (S j) - 1)) with j in Hrec' by lia.
    assert (rec' = rec) as -> by congruence.
    lia.
Qed.

End Claims.

(** ** Two runs on related random sources *)

Section Determinism.
Context {num rng1 rng2 : Type} {NU : Numeric num}
        {RS1 : RandomState num rng1} {RS2 : RandomState num rng2}.
Variable sim : rng1 -> rng2 -> Prop.

(** Related sources hand out the same variates and stay related. *)
Hypothesis sim_norm : forall (loc scale : num) (g1 : rng1) (g2 : rng2),
  sim g1 g2 ->
  (norm_rvs loc scale g1).1 = (norm_rvs loc scale g2).1 /\
  sim (norm_rvs loc scale g1).2 (norm_rvs loc scale g2).2.
Hypothesis sim_uniform : forall (loc scale : num) (g1 : rng1) (g2 : rng2),
  sim g1 g2 ->
  (uniform_rvs loc scale g1).1 = (uniform_rvs loc scale g2).1 /\
  sim (uniform_rvs loc scale g1).2 (uniform_rvs loc scale g2).2.

Lemma mcmc_body_sim (data : list num) (σ0 : num)
    (st1 : state num rng1) (st2 : state num rng2) (i : Z) :
  state_sim sim st1 st2 ->
  result_rel (state_sim sim) (mcmc_body data σ0 st1 i) (mcmc_body data σ0 st2 i).
Proof using sim_norm sim_uniform.
  destruct st1 as [tr g1 h1], st2 as [tr2 g2 h2].
  intros [Htr Hg]. simpl in Htr, Hg. subst tr2.
  unfold mcmc_body. simpl.
  destruct (getitem tr (i - 1)) as [cur | e]; simpl; [| reflexivity].
  destruct (sim_norm cur (lit 0.1) g1 g2 Hg) as [Hv Hg1].
  destruct (norm_rvs cur (lit 0.1) g1) as [p1 g1'].
  destruct (norm_rvs cur (lit 0.1) g2) as [p2 g2'].
  simpl in Hv, Hg1. subst p2.
  destruct (gt _ (lit 1)).
  - destruct (setitem tr i p1); simpl; [by split | reflexivity].
  - destruct (sim_uniform (lit 0) (lit 1) g1' g2' Hg1) as [Hu Hg2].
    destruct (uniform_rvs (lit 0) (lit 1) g1') as [u1 g1''].
    destruct (uniform_rvs (lit 0) (lit 1) g2') as [u2 g2''].
    simpl in Hu, Hg2. subst u2.
    destruct (gt u1 _).
    + destruct (setitem tr i cur); simpl; [by split | reflexivity].
    + destruct (setitem tr i p1); simpl; [by split | reflexivity].
Qed.

Lemma for_each_sim (data : list num) (σ0 : num) (xs : list Z)
    (st1 : state num rng1) (st2 : state num rng2) :
  state_sim sim st1 st2 ->
  result_rel (state_sim sim)
    (for_each (mcmc_body data σ0) xs st1) (for_each (mcmc_body data σ0) xs st2).
Proof using sim_norm sim_uniform.
  revert st1 st2. induction xs as [| i xs IH]; intros st1 st2 Hsim; simpl.
  - exact Hsim.
  - pose proof (mcmc_body_sim data σ0 st1 st2 i Hsim) as Hbody.
    destruct (mcmc_body data σ0 st1 i) as [st1' | e1],
             (mcmc_body data σ0 st2 i) as [st2' | e2]; simpl in Hbody |- *;
      try contradiction; [by apply IH | by subst].
Qed.

(** C6: two invocations with the same observations, initial mean and sample
    count, on random sources that are related (an identically seeded
    generator, or a substitute that hands out the same variates), end the
    same way: the same exception, or two chains equal entry for entry. *)
Theorem mcmc_same_draws_same_chain (data : list num) (μ_0 : num) (n_samples : Z)
    (g1 : rng1) (g2 : rng2) :
  sim g1 g2 ->
  mcmc data μ_0 n_samples g1 = mcmc data μ_0 n_samples g2.
Proof using sim_norm sim_uniform.
  intros Hg. unfold mcmc, mcmc_run.
  destruct (np_ones n_samples) as [ones | e]; simpl; [| reflexivity].
  destruct (setitem (mul np_nan <$> ones) 0 μ_0) as [tr | e]; simpl; [| reflexivity].
  pose proof (for_each_sim data (lit 0.75) (range 1 n_samples)
    {| trace_μ := tr; rng_state := g1; history := [] |}
    {| trace_μ := tr; rng_state := g2; history := [] |}) as Hloop.
  destruct (for_each _ _ _) as [st1 | e1], (for_each _ _ _) as [st2 | e2];
    simpl in Hloop |- *.
  - destruct Hloop as [Htr _]; [by split | by rewrite Htr].
  - by destruct Hloop.
  - by destruct Hloop.
  - rewrite Hloop; [reflexivity | by split].
Qed.

End Determinism.

(** ** The sampler on exact reals *)

Lemma lit_one : lit (num := R) 1 = 1%R.
Proof. simpl. unfold Q2R. simpl. lra. Qed.

Lemma lit_zero : lit (num := R) 0 = 0%R.
Proof. simpl. unfold Q2R. simpl. lra. Qed.

Lemma Rgtb_false (x y : R) : (x <= y)%R -> Rgtb x y = false.
Proof. intros Hxy. unfold Rgtb. destruct (Rgt_dec x y); [lra | reflexivity]. Qed.

(** Over the reals the order of the observations does not change the sum. *)
Lemma np_sum_permutation (xs ys : list R) :
  Permutation xs ys -> np_sum xs = np_sum ys.
Proof.
  intros Hperm. simpl.
  induction Hperm as [| x xs ys _ IH | x y xs | xs ys zs _ IH1 _ IH2]; simpl.
  - reflexivity.
  - by rewrite IH.
  - lra.
  - by rewrite IH1.
Qed.

Section OnlyThroughTheSum.
Context {num rng : Type} {NU : Numeric num} {RS : RandomState num rng}.

(** The observations enter a run through [get_log_lik] alone. *)
Lemma mcmc_run_ext (data data' : list num) (μ_0 : num) (n_samples : Z) (g : rng) :
  (forall d : par_dict num, get_log_lik data d = get_log_lik data' d) ->
  mcmc_run data μ_0 n_samples g = mcmc_run data' μ_0 n_samples g.
Proof.
  intros Hlik. unfold mcmc_run.
  destruct (np_ones n_samples) as [ones | e]; simpl; [| reflexivity].
  destruct (setitem _ 0 μ_0) as [tr | e]; simpl; [| reflexivity].
  apply for_each_ext. intros st i. unfold mcmc_body.
  destruct (getitem (trace_μ st) (i - 1)) as [cur | e]; simpl; [| reflexivity].
  destruct (norm_rvs cur (lit 0.1) (rng_state st)) as [proposed g1].
  by rewrite !Hlik.
Qed.

(** Whatever the carrier, a sum that does not depend on the order of its
    terms makes the run independent of the order of the observations. *)
Lemma mcmc_run_permutation (data data' : list num) (μ_0 : num) (n_samples : Z) (g : rng) :
  (forall xs ys : list num, Permutation xs ys -> np_sum xs = np_sum ys) ->
  Permutation data data' ->
  mcmc_run data μ_0 n_samples g = mcmc_run data' μ_0 n_samples g.
Proof.
  intros Hsum Hperm. apply mcmc_run_ext. intros d. unfold get_log_lik.
  apply Hsum. by apply fmap_Permutation.
Qed.

End OnlyThroughTheSum.

(** ** Concrete runs *)

(** C1, as stated, fails: with no observation, initial mean 1, two samples
    and a generator that hands out the variates 10 and [exp (-1/2)], pass 1
    proposes 2, the ratio is [exp (-1/2)], not above 1, and the uniform value
    drawn, in [0, 1), is that same number: the ratio does not exceed it, and
    yet entry 1 of the chain is the proposal 2, not the previous value 1. *)
Lemma mcmc_accepts_when_ratio_equals_uniform :
  exists (st : state R tape) (rec : iteration R tape),
    mcmc_run [] 1%R 2 ([10; exp (- 1 / 2)]%R : tape) = Ok st /\
    history st !! 0%nat = Some rec /\
    it_index rec = 1%Z /\
    (norm_rvs 1%R (lit 0.1) (it_rng rec)).1 = 2%R /\
    it_ratio rec = exp (- 1 / 2) /\
    gt (it_ratio rec) (lit 1) = false /\
    it_uniform rec = Some (exp (- 1 / 2)) /\
    (0 <= exp (- 1 / 2) < 1)%R /\
    gt (it_ratio rec) (exp (- 1 / 2)) = false /\
    trace_μ st !! 0%nat = Some 1%R /\
    trace_μ st !! 1%nat = Some 2%R /\
    2%R <> 1%R.
Proof.
  assert (Hrange : (0 <= exp (- 1 / 2) < 1)%R).
  { split; [left; apply exp_pos |].
    rewrite <- exp_0. apply exp_increasing. lra. }
  destruct (mcmc_run_passes (num := R) (rng := tape) [] 1%R
              ([10; exp (- 1 / 2)]%R : tape) 2)
    as (st & Hrun & _ & Hfirst & Hlen & Hthread & Hpass); [lia |].
  destruct (Hpass 1%Z) as (rec & Hrec & Hidx & cur & Hcur & Hok); [lia |].
  rewrite Hidx in Hcur.
  change (Z.to_nat (1 - 1)) with 0%nat in Hrec, Hcur.
  assert (cur = 1%R) as -> by congruence.
  assert (Hentry : it_rng rec = ([10; exp (- 1 / 2)]%R : tape)).
  { destruct (history st) as [| r h]; [discriminate |].
    simpl in Hrec. injection Hrec as ->. apply Hthread. }
  rewrite Hentry, Hidx in Hok. cbv zeta in Hok.
  assert (Hdraw : norm_rvs 1%R (lit 0.1) ([10; exp (- 1 / 2)]%R : tape)
                  = (2%R, [exp (- 1 / 2)]%R)).
  { simpl. f_equal. unfold Q2R. simpl. lra. }
  rewrite Hdraw in Hok. simpl fst in Hok. simpl snd in Hok.
  destruct Hok as (Hprop & Hcurr & Hratio & Hdec).
  assert (Hr : it_ratio rec = exp (- 1 / 2)).
  { rewrite Hratio, Hprop, Hcurr.
    unfold log_prob, get_log_lik, get_log_prior. rewrite lit_one. simpl.
    unfold norm_logpdf_R. f_equal. rewrite ln_1. lra. }
  rewrite Hr in Hdec.
  assert (Hle1 : gt (exp (- 1 / 2)) (lit 1) = false).
  { rewrite lit_one. apply Rgtb_false. lra. }
  rewrite Hle1 in Hdec.
  assert (Hu : (exp (- 1 / 2) * Q2R 1 + Q2R 0)%R = exp (- 1 / 2)).
  { pose proof lit_one as H1. pose proof lit_zero as H0. simpl in H1, H0.
    rewrite H1, H0. lra. }
  rewrite Hu in Hdec.
  assert (Htie : gt (exp (- 1 / 2)) (exp (- 1 / 2)) = false)
    by (apply Rgtb_false; lra).
  rewrite Htie in Hdec. destruct Hdec as [Huni Hstore]. simpl in Hstore.
  exists st, rec. rewrite Hentry, Hdraw, Hr.
  repeat split; try assumption; try apply Hrange. lra.
Qed.

Lemma mcmc_acceptance_rule_witness :
  (1 <= example_n_samples)%Z /\
  exists st,
    mcmc_run example_data example_μ_0 example_n_samples example_tape = Ok st /\
    forall i : Z, (1 <= i < example_n_samples)%Z ->
      exists rec prev,
        history st !! Z.to_nat (i - 1) = Some rec /\
        it_index rec = i /\
        trace_μ st !! Z.to_nat (i - 1) = Some prev /\
        if gt (it_ratio rec) (lit 1) then
          it_uniform rec = None /\
          trace_μ st !! Z.to_nat i =
            Some (norm_rvs prev (lit 0.1) (it_rng rec)).1
        else
          exists u,
            it_uniform rec = Some u /\
            u = (uniform_rvs (lit 0) (lit 1)
                   (norm_rvs prev (lit 0.1) (it_rng rec)).2).1 /\
            trace_μ st !! Z.to_nat i =
              Some (if gt u (it_ratio rec) then prev
                    else (norm_rvs prev (lit 0.1) (it_rng rec)).1).
Proof.
  split; [unfold example_n_samples; lia |].
  apply (mcmc_acceptance_rule example_data example_μ_0 example_n_samples example_tape).
  unfold example_n_samples; lia.
Defined.

Lemma mcmc_ratio_is_exp_of_log_posterior_difference_witness :
  (1 <= example_n_samples)%Z /\
  exists st,
    mcmc_run example_data example_μ_0 example_n_samples example_tape = Ok st /\
    forall i : Z, (1 <= i < example_n_samples)%Z ->
      exists rec prev,
        history st !! Z.to_nat (i - 1) = Some rec /\
        it_index rec = i /\
        trace_μ st !! Z.to_nat (i - 1) = Some prev /\
        it_ratio rec =
          np_exp (sub (log_posterior example_data
                         (norm_rvs prev (lit 0.1) (it_rng rec)).1)
                      (log_posterior example_data prev)).
Proof.
  split; [unfold example_n_samples; lia |].
  apply (mcmc_ratio_is_exp_of_log_posterior_difference
           example_data example_μ_0 example_n_samples example_tape).
  unfold example_n_samples; lia.
Defined.

Lemma mcmc_returns_chain_of_requested_length_witness :
  (1 <= example_n_samples)%Z /\
  exists chain,
    mcmc example_data example_μ_0 example_n_samples example_tape = Ok chain /\
    Z.of_nat (length chain) = example_n_samples.
Proof.
  split; [unfold example_n_samples; lia |].
  apply (mcmc_returns_chain_of_requested_length
           example_data example_μ_0 example_n_samples example_tape).
  unfold example_n_samples; lia.
Defined.

Lemma mcmc_first_entry_is_initial_mean_witness :
  (1 <= example_n_samples)%Z /\
  exists chain,
    mcmc example_data example_μ_0 example_n_samples example_tape = Ok chain /\
    chain !! 0%nat = Some example_μ_0.
Proof.
  split; [unfold example_n_samples; lia |].
  apply (mcmc_first_entry_is_initial_mean
           example_data example_μ_0 example_n_samples example_tape).
  unfold example_n_samples; lia.
Defined.

Lemma mcmc_entry_is_previous_or_proposal_witness :
  (1 <= example_n_samples)%Z /\
  exists st,
    mcmc_run example_data example_μ_0 example_n_samples example_tape = Ok st /\
    rng_threaded example_tape (history st) /\
    forall i : Z, (1 <= i < example_n_samples)%Z ->
      exists rec prev,
        history st !! Z.to_nat (i - 1) = Some rec /\
        it_index rec = i /\
        trace_μ st !! Z.to_nat (i - 1) = Some prev /\
        (trace_μ st !! Z.to_nat i = Some prev \/
         trace_μ st !! Z.to_nat i =
           Some (norm_rvs prev (lit 0.1) (it_rng rec)).1).
Proof.
  split; [unfold example_n_samples; lia |].
  apply (mcmc_entry_is_previous_or_proposal
           example_data example_μ_0 example_n_samples example_tape).
  unfold example_n_samples; lia.
Defined.

Lemma mcmc_same_draws_same_chain_witness :
  mcmc example_data example_μ_0 example_n_samples example_tape =
  mcmc example_data example_μ_0 example_n_samples ((example_tape, 0%nat) : counted_tape).
Proof.
  apply (mcmc_same_draws_same_chain (RS1 := tape_random) (RS2 := counted_tape_random)
           (fun (t : tape) (c : counted_tape) => t = c.1)).
  - intros loc scale g1 [g2 c] Hg. simpl in Hg. rewrite Hg.
    destruct g2; split; reflexivity.
  - intros loc scale g1 [g2 c] Hg. simpl in Hg. rewrite Hg.
    destruct g2; split; reflexivity.
  - reflexivity.
Defined.

Lemma mcmc_sigma_fixed_witness :
  (1 <= example_n_samples)%Z /\
  exists st,
    mcmc_run example_data example_μ_0 example_n_samples example_tape = Ok st /\
    Z.of_nat (length (history st)) = (example_n_samples - 1)%Z /\
    forall rec, rec ∈ history st ->
      σ (it_prop_par_dict rec) = lit 0.75 /\
      σ (it_curr_par_dict rec) = lit 0.75 /\
      it_ratio rec =
        np_exp (sub (add (get_log_lik example_data (it_prop_par_dict rec))
                         (get_log_prior (it_prop_par_dict rec) (lit 1) (lit 1)))
                    (add (get_log_lik example_data (it_curr_par_dict rec))
                         (get_log_prior (it_curr_par_dict rec) (lit 1) (lit 1)))).
Proof.
  split; [unfold example_n_samples; lia |].
  apply (mcmc_sigma_fixed example_data example_μ_0 example_n_samples example_tape).
  unfold example_n_samples; lia.
Defined.

Lemma mcmc_zero_samples_raises_and_writes_in_bounds_witness :
  mcmc example_data example_μ_0 0 example_tape = Raise IndexError /\
  (1 <= example_n_samples)%Z /\
  exists st,
    mcmc_run example_data example_μ_0 example_n_samples example_tape = Ok st /\
    Z.of_nat (length (trace_μ st)) = example_n_samples /\
    forall rec, rec ∈ history st -> (0 < it_index rec < example_n_samples)%Z.
Proof.
  destruct (mcmc_zero_samples_raises_and_writes_in_bounds
              example_data example_μ_0 example_tape) as [[_ [_ Hzero]] Hpos].
  split; [exact Hzero |].
  split; [unfold example_n_samples; lia |].
  apply Hpos. unfold example_n_samples; lia.
Defined.

(** ** The chain is the orbit of the transition *)

Section Orbit.
Context {num rng : Type} {NU : Numeric num} {RS : RandomState num rng}.
Variables (data : list num) (μ_0 : num) (g : rng).

Lemma rng_threaded_first (g0 : rng) (hist : list (iteration num rng))
    (r : iteration num rng) :
  rng_threaded g0 hist -> hist !! 0%nat = Some r -> it_rng r = g0.
Proof.
  destruct hist as [| r0 hist]; simpl; [discriminate |].
  intros [Hr _] [= <-]. exact Hr.
Qed.

Lemma rng_threaded_next (g0 : rng) (hist : list (iteration num rng)) (j : nat)
    (r r' : iteration num rng) :
  rng_threaded g0 hist -> hist !! j = Some r -> hist !! S j = Some r' ->
  it_rng r' = rng_after r.
Proof.
  revert g0 j. induction hist as [| r0 hist IH]; intros g0 j; [discriminate |].
  intros [_ Hrest] Hr Hr'. destruct j as [| j].
  - simpl in Hr. injection Hr as ->. simpl in Hr'.
    by apply (rng_threaded_first _ hist).
  - by apply (IH (rng_after r0) j).
Qed.

(** A logged pass is one application of [transition]. *)
Lemma pass_is_transition (chain : list num) (rec : iteration num rng) (cur : num) :
  iteration_ok data chain rec ->
  chain !! Z.to_nat (it_index rec - 1) = Some cur ->
  exists v, chain !! Z.to_nat (it_index rec) = Some v /\
            transition data (cur, it_rng rec) = (v, rng_after rec).
Proof.
  intros (cur' & Hcur' & Hprop & Hcurr & Hratio & Hdec) Hcur.
  assert (cur' = cur) as -> by congruence.
  unfold transition, rng_after. rewrite Hcurr. simpl.
  rewrite Hprop, Hcurr in Hratio.
  destruct (norm_rvs cur (lit 0.1) (it_rng rec)) as [proposed g1].
  simpl in Hratio, Hdec |- *. rewrite <- Hratio.
  destruct (gt (it_ratio rec) (lit 1)).
  - destruct Hdec as [-> Hstore]. by exists proposed.
  - destruct (uniform_rvs (lit 0) (lit 1) g1) as [u g2].
    simpl in Hdec. destruct Hdec as [-> Hstore]. eexists. split; [exact Hstore | done].
Qed.

Lemma orbit_eta (k : nat) :
  orbit data μ_0 g k = ((orbit data μ_0 g k).1, (orbit data μ_0 g k).2).
Proof. by destruct (orbit data μ_0 g k). Qed.

(** Entry [j] of a finished run is the mean after [j] moves, and pass [j + 1]
    starts from the random source those moves left. *)
Lemma mcmc_run_orbit (n_samples : Z) :
  (1 <= n_samples)%Z ->
  exists st,
    mcmc_run data μ_0 n_samples g = Ok st /\
    length (trace_μ st) = Z.to_nat n_samples /\
    rng_state st = (orbit data μ_0 g (Z.to_nat n_samples - 1)).2 /\
    forall j : nat, j < Z.to_nat n_samples ->
      trace_μ st !! j = Some (orbit data μ_0 g j).1.
Proof.
  intros Hn.
  destruct (mcmc_run_inv data μ_0 g n_samples Hn)
    as (st & Hrun & Hlen & Hfirst & Hhist & Hthread & Hrng & Hdone).
  exists st. split; [assumption |]. split; [assumption |].
  assert (Hall : forall j : nat, j < Z.to_nat n_samples ->
             trace_μ st !! j = Some (orbit data μ_0 g j).1 /\
             (forall rec, history st !! j = Some rec ->
                          it_rng rec = (orbit data μ_0 g j).2) /\
             (forall rec, history st !! j = Some rec ->
                          rng_after rec = (orbit data μ_0 g (S j)).2)).
  { assert (Hmove : forall (j : nat) rec,
              trace_μ st !! j = Some (orbit data μ_0 g j).1 ->
              history st !! j = Some rec ->
              it_rng rec = (orbit data μ_0 g j).2 ->
              trace_μ st !! S j = Some (orbit data μ_0 g (S j)).1 /\
              rng_after rec = (orbit data μ_0 g (S j)).2).
    { intros j rec Hj Hrec Hentry.
      assert (Hjlt : j < Z.to_nat n_samples - 1)
        by (rewrite <- Hhist; by eapply lookup_lt_Some).
      destruct (Hdone j Hjlt) as (rec' & Hrec' & Hidx & Hok).
      assert (rec' = rec) as -> by congruence.
      destruct (pass_is_transition (trace_μ st) rec (orbit data μ_0 g j).1 Hok)
        as (v & Hv & Htrans).
      { rewrite Hidx. by replace (Z.to_nat (Z.of_nat (S j) - 1)) with j by lia. }
      rewrite Hidx, Nat2Z.id in Hv.
      rewrite Hentry, <- orbit_eta in Htrans. simpl. rewrite Htrans. by split. }
    induction j as [| j IH]; intros Hj.
    - split; [exact Hfirst |]. split.
      + intros rec Hrec. by apply (rng_threaded_first _ (history st)).
      + intros rec Hrec.
        apply (Hmove 0%nat rec Hfirst Hrec).
        by apply (rng_threaded_first _ (history st)).
    - destruct IH as (Hprev & Hentry & Hafter); [lia |].
      assert (Hjlt : j < length (history st)) by lia.
      destruct (lookup_lt_is_Some_2 _ _ Hjlt) as [rec Hrec].
      destruct (Hmove j rec Hprev Hrec (Hentry rec Hrec)) as [Hnext Hleft].
      split; [exact Hnext |].
      assert (Hentry' : forall rec', history st !! S j = Some rec' ->
                          it_rng rec' = (orbit data μ_0 g (S j)).2).
      { intros rec' Hrec'. rewrite <- Hleft.
        by apply (rng_threaded_next g (history st) j). }
      split; [exact Hentry' |].
      intros rec' Hrec'. by apply (Hmove (S j) rec' Hnext Hrec'), Hentry'. }
  split; [| intros j Hj; by apply Hall].
  rewrite Hrng. destruct (history st) as [| r0 h0] eqn:Hh using rev_ind.
  - simpl in Hhist. by replace (Z.to_nat n_samples - 1) with 0%nat by lia.
  - clear IHh0. rewrite final_rng_snoc.
    rewrite length_app in Hhist. simpl in Hhist.
    destruct (Hall (length h0)) as (_ & _ & Hafter); [lia |].
    rewrite (Hafter r0).
    + f_equal. f_equal. lia.
    + by rewrite lookup_app_r, Nat.sub_diag by lia.
Qed.

End Orbit.

(** ** Further properties of the sampler, on any carrier *)

Section Further.
Context {num rng : Type} {NU : Numeric num} {RS : RandomState num rng}.

(** X1: the call returns a chain exactly when [n_samples >= 1]; a negative
    [n_samples] raises [ValueError] (from [np.ones]), whatever the
    observations, the initial mean and the random source. *)
Theorem mcmc_returns_iff_positive_sample_count
    (data : list num) (μ_0 : num) (n_samples : Z) (g : rng) :
  ((n_samples < 0)%Z -> mcmc data μ_0 n_samples g = Raise ValueError) /\
  ((exists chain, mcmc data μ_0 n_samples g = Ok chain) <-> (1 <= n_samples)%Z).
Proof.
  assert (Hneg : (n_samples < 0)%Z -> mcmc data μ_0 n_samples g = Raise ValueError).
  { intros Hlt. unfold mcmc, mcmc_run, np_ones.
    destruct (Z.ltb_spec n_samples 0) as [_ | Hge]; [reflexivity | lia]. }
  split; [exact Hneg |]. split.
  - intros [chain Hchain].
    destruct (Z.lt_trichotomy n_samples 0) as [Hlt | [-> | Hgt]]; [| | lia].
    + rewrite (Hneg Hlt) in Hchain. discriminate.
    + discriminate.
  - intros Hn.
    destruct (mcmc_run_passes data μ_0 g n_samples Hn) as (st & Hrun & _).
    exists (trace_μ st). unfold mcmc. by rewrite Hrun.
Qed.

(** X2: the array loop computes the orbit of one move: for [n_samples >= 1]
    entry [k] of the returned chain is the mean after [k] applications of
    [transition] to the initial mean and random source, and the random source
    is left as the last move left it.  The values [np.nan * np.ones(..)] put
    in the chain play no part. *)
Theorem mcmc_chain_is_orbit (data : list num) (μ_0 : num) (n_samples : Z) (g : rng) :
  (1 <= n_samples)%Z ->
  exists st,
    mcmc_run data μ_0 n_samples g = Ok st /\
    trace_μ st = (fun k => (orbit data μ_0 g k).1) <$> seq 0 (Z.to_nat n_samples) /\
    rng_state st = (orbit data μ_0 g (Z.to_nat n_samples - 1)).2.
Proof.
  intros Hn.
  destruct (mcmc_run_orbit data μ_0 g n_samples Hn) as (st & Hrun & Hlen & Hrng & Hall).
  exists st. split; [assumption |]. split; [| assumption].
  apply list_eq. intros j. rewrite list_lookup_fmap.
  destruct (decide (j < Z.to_nat n_samples)) as [Hj | Hj].
  - rewrite (Hall j Hj), lookup_seq_lt by assumption. reflexivity.
  - rewrite lookup_ge_None_2 by lia.
    rewrite lookup_seq_ge by lia. reflexivity.
Qed.

(** X3: asking for more samples does not change the earlier ones: with the
    same observations, initial mean and random source, the chain of
    [n_samples] entries is the beginning of the chain of any longer run. *)
Theorem mcmc_longer_run_extends_chain
    (data : list num) (μ_0 : num) (n_samples more : Z) (g : rng) :
  (1 <= n_samples)%Z -> (0 <= more)%Z ->
  exists chain longer,
    mcmc data μ_0 n_samples g = Ok chain /\
    mcmc data μ_0 (n_samples + more) g = Ok longer /\
    chain = take (Z.to_nat n_samples) longer.
Proof.
  intros Hn Hmore.
  destruct (mcmc_run_orbit data μ_0 g n_samples Hn) as (st & Hrun & Hlen & _ & Hall).
  destruct (mcmc_run_orbit data μ_0 g (n_samples + more)) as (st' & Hrun' & Hlen' & _ & Hall');
    [lia |].
  exists (trace_μ st), (trace_μ st'). unfold mcmc. rewrite Hrun, Hrun'.
  split; [reflexivity |]. split; [reflexivity |].
  apply list_eq. intros j.
  destruct (decide (j < Z.to_nat n_samples)) as [Hj | Hj].
  - rewrite lookup_take_lt by assumption.
    rewrite (Hall j Hj), (Hall' j) by lia. reflexivity.
  - rewrite lookup_ge_None_2 by lia.
    rewrite lookup_take_ge by lia. reflexivity.
Qed.

(** X4: nothing of the initial filling [np.nan * np.ones(n_samples)] is left
    in a returned chain: every entry is the initial mean or the mean proposed
    in one of the passes. *)
Theorem mcmc_entries_are_initial_or_proposed
    (data : list num) (μ_0 : num) (n_samples : Z) (g : rng) :
  (1 <= n_samples)%Z ->
  exists st,
    mcmc_run data μ_0 n_samples g = Ok st /\
    forall k : nat, k < length (trace_μ st) ->
      exists v, trace_μ st !! k = Some v /\
        (v = μ_0 \/
         exists rec, rec ∈ history st /\ v = μ (it_prop_par_dict rec)).
Proof.
  intros Hn.
  destruct (mcmc_run_passes data μ_0 g n_samples Hn)
    as (st & Hrun & Hlen & Hfirst & _ & _ & Hpass).
  exists st. split; [assumption |].
  induction k as [| k IH]; intros Hk.
  - exists μ_0. split; [assumption | by left].
  - destruct IH as (prev & Hprev & Horigin); [lia |].
    destruct (Hpass (Z.of_nat (S k))) as (rec & Hrec & Hidx & cur & Hcur & Hprop & _ & _ & Hdec);
      [lia |].
    rewrite Hidx in Hcur, Hdec.
    replace (Z.to_nat (Z.of_nat (S k) - 1)) with k in Hcur, Hrec by lia.
    rewrite Nat2Z.id in Hdec.
    assert (cur = prev) as -> by congruence.
    assert (Hin : rec ∈ history st) by (apply list_elem_of_lookup; eauto).
    assert (Hproposed : μ (it_prop_par_dict rec)
                        = (norm_rvs prev (lit 0.1) (it_rng rec)).1)
      by (by rewrite Hprop).
    simpl in Hdec. rewrite <- Hproposed in Hdec.
    destruct (gt (it_ratio rec) (lit 1)).
    + destruct Hdec as [_ Hstore]. eexists. split; [exact Hstore |]. right. eauto.
    + destruct Hdec as [_ Hstore]. destruct (gt _ (it_ratio rec)).
      * exists prev. split; [exact Hstore | exact Horigin].
      * eexists. split; [exact Hstore |]. right. eauto.
Qed.

(** X5: the two runs of the notebook, [mcmc(data=.., n_samples=2000)], return
    2000 entries that start at the default initial mean 0.5, so the slices the
    following cells take are never short: [trace[1500:]] has 500 entries and
    [trace[100:]] has 1900, enough for the 200 draws without replacement of
    the thinning cell. *)
Theorem notebook_trace_slices (data : list num) (g : rng) :
  exists trace,
    notebook_trace data g = Ok trace /\
    length trace = 2000%nat /\
    trace !! 0%nat = Some (lit 0.5) /\
    length (slice_from trace 1500) = 500%nat /\
    length (slice_from trace 100) = 1900%nat /\
    200 <= length (slice_from trace 100).
Proof.
  destruct (mcmc_run_passes data (lit 0.5) g 2000) as (st & Hrun & Hlen & Hfirst & _);
    [lia |].
  exists (trace_μ st). unfold notebook_trace, mcmc. rewrite Hrun.
  assert (Hl : length (trace_μ st) = 2000%nat) by lia.
  split; [reflexivity |]. split; [exact Hl |]. split; [exact Hfirst |].
  unfold slice_from. rewrite !length_drop, Hl.
  change (1500 <? 0)%Z with false. change (100 <? 0)%Z with false. lia.
Qed.

End Further.

(** ** Concrete runs for the further properties *)

Lemma mcmc_returns_iff_positive_sample_count_witness :
  ((-2 < 0)%Z /\
   mcmc example_data example_μ_0 (-2) example_tape = Raise ValueError) /\
  ((1 <= example_n_samples)%Z /\
   exists chain,
     mcmc example_data example_μ_0 example_n_samples example_tape = Ok chain).
Proof.
  split.
  - split; [lia |].
    apply (mcmc_returns_iff_positive_sample_count
             example_data example_μ_0 (-2) example_tape). lia.
  - split; [unfold example_n_samples; lia |].
    apply (mcmc_returns_iff_positive_sample_count
             example_data example_μ_0 example_n_samples example_tape).
    unfold example_n_samples; lia.
Defined.

Lemma mcmc_chain_is_orbit_witness :
  (1 <= example_n_samples)%Z /\
  exists st,
    mcmc_run example_data example_μ_0 example_n_samples example_tape = Ok st /\
    trace_μ st =
      (fun k => (orbit example_data example_μ_0 example_tape k).1)
        <$> seq 0 (Z.to_nat example_n_samples) /\
    rng_state st =
      (orbit example_data example_μ_0 example_tape
             (Z.to_nat example_n_samples - 1)).2.
Proof.
  split; [unfold example_n_samples; lia |].
  apply (mcmc_chain_is_orbit example_data example_μ_0 example_n_samples example_tape).
  unfold example_n_samples; lia.
Defined.

Lemma mcmc_longer_run_extends_chain_witness :
  ((1 <= example_n_samples)%Z /\ (0 <= 2)%Z) /\
  exists chain longer,
    mcmc example_data example_μ_0 example_n_samples example_tape = Ok chain /\
    mcmc example_data example_μ_0 (example_n_samples + 2) example_tape = Ok longer /\
    chain = take (Z.to_nat example_n_samples) longer.
Proof.
  split; [unfold example_n_samples; lia |].
  apply (mcmc_longer_run_extends_chain
           example_data example_μ_0 example_n_samples 2 example_tape);
    unfold example_n_samples; lia.
Defined.

Lemma mcmc_entries_are_initial_or_proposed_witness :
  (1 <= example_n_samples)%Z /\
  exists st,
    mcmc_run example_data example_μ_0 example_n_samples example_tape = Ok st /\
    forall k : nat, k < length (trace_μ st) ->
      exists v, trace_μ st !! k = Some v /\
        (v = example_μ_0 \/
         exists rec, rec ∈ history st /\ v = μ (it_prop_par_dict rec)).
Proof.
  split; [unfold example_n_samples; lia |].
  apply (mcmc_entries_are_initial_or_proposed
           example_data example_μ_0 example_n_samples example_tape).
  unfold example_n_samples; lia.
Defined.

(** ** Empty and reordered observations, on any carrier *)

Section ThroughTheSum.
Context {num rng : Type} {NU : Numeric num} {RS : RandomState num rng}.

(** C7 (as the code has it): on a carrier whose empty sum is the literal 0,
    and where adding that 0 to a log-prior value leaves it unchanged, the
    log-likelihood of no observation is 0 at every parameter dictionary, and
    in every pass the acceptance ratio is the exponential of the difference
    of the Gaussian log-prior densities (mean 1, standard deviation 1) of the
    proposed and of the previous mean. *)
Theorem mcmc_empty_data_ratio_is_exp_of_log_prior_difference
    (μ_0 : num) (n_samples : Z) (g : rng) :
  np_sum [] = lit 0 ->
  (forall m : num,
     add (lit 0) (norm_logpdf m (lit 1) (lit 1)) = norm_logpdf m (lit 1) (lit 1)) ->
  (1 <= n_samples)%Z ->
  (forall d : par_dict num, get_log_lik [] d = lit 0) /\
  exists st,
    mcmc_run [] μ_0 n_samples g = Ok st /\
    forall i : Z, (1 <= i < n_samples)%Z ->
      exists rec prev,
        history st !! Z.to_nat (i - 1) = Some rec /\
        it_index rec = i /\
        trace_μ st !! Z.to_nat (i - 1) = Some prev /\
        let proposed := (norm_rvs prev (lit 0.1) (it_rng rec)).1 in
        it_ratio rec =
          np_exp (sub (norm_logpdf proposed (lit 1) (lit 1))
                      (norm_logpdf prev (lit 1) (lit 1))).
Proof.
  intros Hempty Hneutral Hn.
  assert (Hlik : forall d : par_dict num, get_log_lik [] d = lit 0)
    by (intros d; exact Hempty).
  split; [exact Hlik |].
  destruct (mcmc_run_passes [] μ_0 g n_samples Hn)
    as (st & Hrun & _ & _ & _ & _ & Hpass).
  exists st. split; [assumption |]. intros i Hi.
  destruct (Hpass i Hi)
    as (rec & Hrec & Hidx & prev & Hprev & Hprop & Hcurr & Hratio & _).
  rewrite Hidx in Hprev.
  exists rec, prev. repeat split; try assumption.
  cbv zeta. rewrite Hratio, Hprop, Hcurr.
  unfold log_prob, get_log_prior. rewrite !Hlik. cbn [μ].
  by rewrite !Hneutral.
Qed.

(** C10 (as the code has it): the observations enter a run only through the
    sum of their log-densities: two observation sequences whose sums agree at
    every parameter dictionary give the same result from the same initial
    mean, sample count and random draws; for two sequences that are
    permutations of each other this is so on every carrier whose sum does not
    depend on the order of its terms. *)
Theorem mcmc_depends_on_data_through_log_lik
    (data data' : list num) (μ_0 : num) (n_samples : Z) (g : rng) :
  ((forall d : par_dict num, get_log_lik data d = get_log_lik data' d) ->
   mcmc data μ_0 n_samples g = mcmc data' μ_0 n_samples g) /\
  ((forall xs ys : list num, Permutation xs ys -> np_sum xs = np_sum ys) ->
   Permutation data data' ->
   mcmc data μ_0 n_samples g = mcmc data' μ_0 n_samples g).
Proof.
  split.
  - intros Hlik. unfold mcmc. by rewrite (mcmc_run_ext data data').
  - intros Hsum Hperm. unfold mcmc.
    by rewrite (mcmc_run_permutation data data' μ_0 n_samples g Hsum Hperm).
Qed.

End ThroughTheSum.

Lemma mcmc_empty_data_ratio_is_exp_of_log_prior_difference_witness :
  (np_sum (@nil R) = lit 0 /\
   (forall m : R,
      add (lit 0) (norm_logpdf m (lit 1) (lit 1)) = norm_logpdf m (lit 1) (lit 1)) /\
   (1 <= example_n_samples)%Z) /\
  (forall d : par_dict R, get_log_lik [] d = lit 0) /\
  exists st,
    mcmc_run [] example_μ_0 example_n_samples example_tape = Ok st /\
    forall i : Z, (1 <= i < example_n_samples)%Z ->
      exists rec prev,
        history st !! Z.to_nat (i - 1) = Some rec /\
        it_index rec = i /\
        trace_μ st !! Z.to_nat (i - 1) = Some prev /\
        it_ratio rec =
          np_exp (sub (norm_logpdf (norm_rvs prev (lit 0.1) (it_rng rec)).1
                                   (lit 1) (lit 1))
                      (norm_logpdf prev (lit 1) (lit 1))).
Proof.
  assert (Hempty : np_sum (@nil R) = lit 0) by (rewrite lit_zero; reflexivity).
  assert (Hneutral : forall m : R,
            add (lit 0) (norm_logpdf m (lit 1) (lit 1))
            = norm_logpdf m (lit 1) (lit 1))
    by (intros m; rewrite lit_zero; apply Rplus_0_l).
  assert (Hn : (1 <= example_n_samples)%Z) by (unfold example_n_samples; lia).
  split; [by repeat split |].
  exact (mcmc_empty_data_ratio_is_exp_of_log_prior_difference
           example_μ_0 example_n_samples example_tape Hempty Hneutral Hn).
Defined.

Lemma mcmc_depends_on_data_through_log_lik_witness :
  ((forall xs ys : list R, Permutation xs ys -> np_sum xs = np_sum ys) /\
   Permutation example_data [0.5; 1.5]%R) /\
  mcmc example_data example_μ_0 example_n_samples example_tape =
  mcmc [0.5; 1.5]%R example_μ_0 example_n_samples example_tape.
Proof.
  assert (Hperm : Permutation example_data [0.5; 1.5]%R) by apply perm_swap.
  split; [split; [exact np_sum_permutation | exact Hperm] |].
  apply (mcmc_depends_on_data_through_log_lik example_data [0.5; 1.5]%R
           example_μ_0 example_n_samples example_tape).
  - exact np_sum_permutation.
  - exact Hperm.
Defined.

(** ** Concrete runs in binary64 *)

Module Binary64Runs.
Import Floats.
Import Binary64.
Local Open Scope float_scope.

(** C7, as stated, fails on the program's arithmetic: with no observation,
    initial mean 10001 and the variate -10, pass 1 proposes 10000; both
    log-likelihoods are 0, the difference of the log-priors is about 9999.5
    and its exponential overflows: the acceptance ratio is [inf].  The two
    prior densities underflow to 0 and their quotient is NaN: the ratio is
    the exponential of the log-prior difference, and not the quotient of the
    densities (whose exact value is finite). *)
Lemma mcmc_empty_data_ratio_is_not_density_quotient :
  exists (st : state float ftape) (rec : iteration float ftape),
    mcmc_run [] 10001 2 [-10] = Ok st /\
    history st !! 0%nat = Some rec /\
    trace_μ st = [10001; 10000] /\
    μ (it_curr_par_dict rec) = 10001 /\
    μ (it_prop_par_dict rec) = 10000 /\
    get_log_lik [] (it_curr_par_dict rec) = 0 /\
    get_log_lik [] (it_prop_par_dict rec) = 0 /\
    it_ratio rec = infinity /\
    it_ratio rec = exp64 (norm_logpdf64 10000 1 1 - norm_logpdf64 10001 1 1) /\
    norm_pdf64 10000 1 1 = 0 /\
    norm_pdf64 10001 1 1 = 0 /\
    norm_pdf64 10000 1 1 / norm_pdf64 10001 1 1 = nan /\
    it_ratio rec <> norm_pdf64 10000 1 1 / norm_pdf64 10001 1 1.
Proof.
  eexists _, _.
  split; [vm_compute; reflexivity |].
  split; [vm_compute; reflexivity |].
  repeat (split; [vm_compute; reflexivity |]).
  intros Heq. apply (f_equal is_nan) in Heq. vm_compute in Heq. discriminate.
Qed.

(** C10, as stated, fails on the program's arithmetic: [observations_b] is a
    permutation of [observations_a], and from the same initial mean 0.5, for
    two samples and with the same variates (-5, which proposes 0, then
    [separating_uniform], which lies in [0, 1)), the first run keeps 0.5 and
    the second accepts 0.  The summed log-densities differ in their last
    digits with the order of the terms, and the two acceptance ratios fall on
    either side of the uniform variate. *)
Lemma mcmc_permuted_data_give_different_chains :
  Permutation observations_a observations_b /\
  (0 <=? separating_uniform) = true /\
  (separating_uniform <? 1) = true /\
  mcmc observations_a 0.5 2 [-5; separating_uniform] = Ok [0.5; 0.5] /\
  mcmc observations_b 0.5 2 [-5; separating_uniform] = Ok [0.5; 0] /\
  mcmc observations_a 0.5 2 [-5; separating_uniform]
  <> mcmc observations_b 0.5 2 [-5; separating_uniform].
Proof.
  assert (Ha : mcmc observations_a 0.5 2 [-5; separating_uniform] = Ok [0.5; 0.5])
    by (vm_compute; reflexivity).
  assert (Hb : mcmc observations_b 0.5 2 [-5; separating_uniform] = Ok [0.5; 0])
    by (vm_compute; reflexivity).
  split.
  { unfold observations_a, observations_b.
    eapply perm_trans; [apply perm_skip, perm_swap | apply perm_swap]. }
  split; [vm_compute; reflexivity |].
  split; [vm_compute; reflexivity |].
  split; [exact Ha |]. split; [exact Hb |].
  rewrite Ha, Hb. intros Heq.
  apply (f_equal (fun r : result (list float) =>
                    match r with
                    | Ok [_; x] => x =? 0
                    | _ => false
                    end)) in Heq.
  vm_compute in Heq. discriminate.
Qed.

End Binary64Runs.
